(** * Shallow embedding of shyft's core/utctime_utilities.h

    Instants ([utctime]) and spans ([utctimespan]) are 64-bit counts of
    microseconds, modelled as [Z] together with the two's-complement range
    they live in.  C++ integer division truncates toward zero, so [/] and [%]
    on [int64_t] are [Z.quot] and [Z.rem]; fallible code returns a [res]. *)

From Stdlib Require Import ZArith Bool List String Ascii Lia.
Import ListNotations.
Open Scope Z_scope.

(** ** Machine integers *)

Definition int64_min : Z := - 2 ^ 63.
Definition int64_max : Z := 2 ^ 63 - 1.
Definition in_int64 (z : Z) : Prop := int64_min <= z <= int64_max.

(** Signed overflow is undefined in C++; the model takes the two's-complement
    wrap-around that the generated code produces. *)
Definition wrap64 (z : Z) : Z := (z + 2 ^ 63) mod 2 ^ 64 - 2 ^ 63.
Definition wrap32 (z : Z) : Z := (z + 2 ^ 31) mod 2 ^ 32 - 2 ^ 31.
Definition in_int32 (z : Z) : Prop := - 2 ^ 31 <= z < 2 ^ 31.

(** ** Outcomes of fallible code *)

(** [Throw] is a [std::runtime_error]; [Undefined] is undefined behaviour,
    here an out-of-range [std::vector::operator[]]. *)
Inductive res (A : Type) : Type :=
| Ok : A -> res A
| Throw : string -> res A
| Undefined : res A.
Arguments Ok {A} _.
Arguments Throw {A} _.
Arguments Undefined {A}.

Definition res_bind {A B : Type} (m : res A) (k : A -> res B) : res B :=
  match m with
  | Ok a => k a
  | Throw s => Throw s
  | Undefined => Undefined
  end.

Notation "x <- m ;; k" := (res_bind m (fun x => k))
  (at level 61, m at next level, right associativity).

Definition is_throw {A : Type} (m : res A) : bool :=
  match m with Throw _ => true | _ => false end.

(** [v[i]] on a [std::vector]: defined only for [0 <= i < v.size()]. *)
Definition vec_at {A : Type} (v : list A) (i : Z) : res A :=
  if (i <? 0) || (Z.of_nat (List.length v) <=? i) then Undefined
  else match nth_error v (Z.to_nat i) with
       | Some a => Ok a
       | None => Undefined
       end.

(** ** utctime, utctimespan and the sentinels (lines 28-43) *)

Definition utctime := Z.
Definition utctimespan := Z.

(** [utctime::max()] and [utctime::min()] are the limits of [int64_t]. *)
Definition max_utctime : utctime := int64_max.
(** [utctime(- utctime::min().time_since_epoch())]: the negation of the
    smallest [int64_t], taken modulo 2^64. *)
Definition min_utctime : utctime := wrap64 (- int64_min).
Definition no_utctime : utctime := int64_min.

Definition is_valid (t : utctime) : bool := negb (t =? no_utctime).

Definition deltahours (h : Z) : utctimespan := h * 3600 * 1000000.

(** ** floor (lines 51-60) *)

Definition floor (t : utctime) (dt : utctimespan) : utctime :=
  let den := dt in
  if den =? 0 then t
  else
    let num := t in
    if 0 <? Z.lxor num den then wrap64 (den * Z.quot num den)
    else
      let quot := Z.quot num den in
      let rem := Z.rem num den in
      if negb (rem =? 0) then wrap64 (den * (quot - 1)) else wrap64 (den * quot).

(** ** utcperiod (lines 74-98) *)

Record utcperiod := mk_utcperiod { start : utctime; end_ : utctime }.

Definition utcperiod_default : utcperiod := mk_utcperiod no_utctime no_utctime.

Definition valid (p : utcperiod) : bool :=
  negb (start p =? no_utctime) && negb (end_ p =? no_utctime) && (start p <=? end_ p).

Definition contains (p : utcperiod) (t : utctime) : bool :=
  if is_valid t && valid p then (start p <=? t) && (t <? end_ p) else false.

Definition overlaps (self p : utcperiod) : bool :=
  if (end_ self <=? start p) || (end_ p <=? start self) then false else true.

(** [std::max(a, b)] is [(a < b) ? b : a]; [std::min(a, b)] is [(b < a) ? b : a]. *)
Definition std_max (a b : Z) : Z := if a <? b then b else a.
Definition std_min (a b : Z) : Z := if b <? a then b else a.

Definition intersection (a b : utcperiod) : utcperiod :=
  let t0 := std_max (start a) (start b) in
  let t1 := std_min (end_ a) (end_ b) in
  if t0 <=? t1 then mk_utcperiod t0 t1 else utcperiod_default.

(** ** YMDhms and YWdhms (lines 227-281) *)

Definition YEAR_MAX : Z := 9999.
Definition YEAR_MIN : Z := -9999.

Record YMDhms := mk_YMDhms {
  year : Z; month : Z; day : Z; hour : Z; minute : Z; second : Z }.

Definition YMDhms_null : YMDhms := mk_YMDhms 0 0 0 0 0 0.

Definition YMDhms_is_valid_coordinates (c : YMDhms) : bool :=
  negb ((year c <? YEAR_MIN) || (YEAR_MAX <? year c) || (month c <? 1) || (12 <? month c)
        || (day c <? 1) || (31 <? day c) || (hour c <? 0) || (23 <? hour c)
        || (minute c <? 0) || (59 <? minute c) || (second c <? 0) || (59 <? second c)).

Definition YMDhms_is_null (c : YMDhms) : bool :=
  (year c =? 0) && (month c =? 0) && (day c =? 0) && (hour c =? 0)
  && (minute c =? 0) && (second c =? 0).

Definition YMDhms_is_valid (c : YMDhms) : bool :=
  YMDhms_is_null c || YMDhms_is_valid_coordinates c.

(** The checking constructor [YMDhms(Y, M, D, h, m, s)]. *)
Definition make_YMDhms (Y M D h m s : Z) : res YMDhms :=
  let c := mk_YMDhms Y M D h m s in
  if negb (YMDhms_is_valid c)
  then Throw "calendar coordinates failed simple range check for one or more item"
  else Ok c.

Record YWdhms := mk_YWdhms {
  iso_year : Z; iso_week : Z; week_day : Z; w_hour : Z; w_minute : Z; w_second : Z }.

Definition YWdhms_is_null (c : YWdhms) : bool :=
  (iso_year c =? 0) && (iso_week c =? 0) && (week_day c =? 0) && (w_hour c =? 0)
  && (w_minute c =? 0) && (w_second c =? 0).

Definition YWdhms_is_valid_coordinates (c : YWdhms) : bool :=
  negb ((iso_year c <? YEAR_MIN) || (YEAR_MAX <? iso_year c) || (iso_week c <? 1)
        || (53 <? iso_week c) || (week_day c <? 1) || (7 <? week_day c)
        || (w_hour c <? 0) || (23 <? w_hour c) || (w_minute c <? 0) || (59 <? w_minute c)
        || (w_second c <? 0) || (59 <? w_second c)).

Definition YWdhms_is_valid (c : YWdhms) : bool :=
  YWdhms_is_null c || YWdhms_is_valid_coordinates c.

(** The checking constructor [YWdhms(iso_year, iso_week, week_day, h, m, s)]. *)
Definition make_YWdhms (Y W wd h m s : Z) : res YWdhms :=
  let c := mk_YWdhms Y W wd h m s in
  if negb (YWdhms_is_valid c)
  then Throw "calendar iso week coordinates failed simple range check for one or more item"
  else Ok c.

(** ** calendar constants and day numbers (lines 298-374) *)

Definition SECOND : utctimespan := 1000000.
Definition DAY : utctimespan := 24 * deltahours 1.
Definition UnixDay : Z := 2440588.
Definition UnixSecond : Z := UnixDay * 86400.

(** [duration_cast<seconds>] of a microsecond count truncates toward zero. *)
Definition duration_cast_seconds (us : Z) : Z := Z.quot us 1000000.

(** [calendar::day_number(utctime)] *)
Definition day_number_t (t : utctime) : Z :=
  Z.quot (UnixSecond + duration_cast_seconds t) (duration_cast_seconds DAY).

(** Modelled from the spec: [calendar::from_day_number] is declared in the
    header ("snapped from boost gregorian_calendar.ipp") but its body is not
    part of the sources; the spec names the standard textbook inversion of the
    Gregorian serial day number, written here on the non-negative
    [unsigned long] argument. *)
Definition from_day_number (dayNumber : Z) : YMDhms :=
  let a := dayNumber + 32044 in
  let b := (4 * a + 3) / 146097 in
  let c := a - (146097 * b) / 4 in
  let d := (4 * c + 3) / 1461 in
  let e := c - (1461 * d) / 4 in
  let m := (5 * e + 2) / 153 in
  let D := e - (153 * m + 2) / 5 + 1 in
  let M := m + 3 - 12 * (m / 10) in
  let Y := 100 * b + d - 4800 + m / 10 in
  mk_YMDhms Y M D 0 0 0.

(** [calendar::utc_year]; the [int64_t] day number is passed to an
    [unsigned long] parameter, i.e. taken modulo 2^64. *)
Definition utc_year (t : utctime) : res Z :=
  if t =? no_utctime then Throw "year of no_utctime"
  else if t =? max_utctime then Ok YEAR_MAX
  else if t =? min_utctime then Ok YEAR_MIN
  else Ok (year (from_day_number (day_number_t t mod 2 ^ 64))).

(** ** printf's [%+02d] *)

Fixpoint uint_to_string (d : Decimal.uint) : string :=
  match d with
  | Decimal.Nil => ""
  | Decimal.D0 d => String "0" (uint_to_string d)
  | Decimal.D1 d => String "1" (uint_to_string d)
  | Decimal.D2 d => String "2" (uint_to_string d)
  | Decimal.D3 d => String "3" (uint_to_string d)
  | Decimal.D4 d => String "4" (uint_to_string d)
  | Decimal.D5 d => String "5" (uint_to_string d)
  | Decimal.D6 d => String "6" (uint_to_string d)
  | Decimal.D7 d => String "7" (uint_to_string d)
  | Decimal.D8 d => String "8" (uint_to_string d)
  | Decimal.D9 d => String "9" (uint_to_string d)
  end.

Fixpoint zeros (n : nat) : string :=
  match n with O => "" | S n => String "0" (zeros n) end.

(** [%+02d]: a sign is always written; the field width 2 counts the sign, and
    the [0] flag pads with zeros between the sign and the digits. *)
Definition printf_plus_02d (n : Z) : string :=
  let sign := if n <? 0 then "-"%string else "+"%string in
  let digits := uint_to_string (N.to_uint (Z.abs_N n)) in
  let pad := (2 - (1 + String.length digits))%nat in
  (sign ++ zeros pad ++ digits)%string.

(** ** tz_table (lines 123-158, 467-474) *)

Record tz_table := mk_tz_table {
  start_year : Z;
  tz_name : string;
  dst : list utcperiod;
  dt : list utctimespan }.

(** The rule provider [Tz] of the template constructor. *)
Record tz_provider := mk_tz_provider {
  p_dst_start : Z -> utctime;
  p_dst_end : Z -> utctime;
  p_dst_offset : Z -> utctimespan;
  p_name : string }.

(** The loop runs [y] from [start_year] while [y < int(start_year+n_years)]:
    the [size_t] sum is converted to [int], i.e. taken modulo 2^32, so the
    number of iterations is that bound minus [start_year] (none if negative). *)
Definition tz_table_of_provider (tz : tz_provider) (start_year : Z) (n_years : Z) : tz_table :=
  let bound := wrap32 (start_year + n_years) in
  let years := map (fun i => start_year + Z.of_nat i)
                   (seq 0 (Z.to_nat (bound - start_year))) in
  mk_tz_table start_year (p_name tz)
    (map (fun y => mk_utcperiod (p_dst_start tz y) (p_dst_end tz y)) years)
    (map (p_dst_offset tz) years).

(** [explicit tz_table(utctimespan dt)] *)
Definition tz_table_of_offset (dt : utctimespan) : tz_table :=
  mk_tz_table 0 ("UTC" ++ printf_plus_02d (wrap32 (Z.quot dt (deltahours 1))))%string [] [].

(** [tz_table()] *)
Definition tz_table_default : tz_table := mk_tz_table 0 "UTC+00" [] [].

Definition is_dst (tbl : tz_table) : bool := (0 <? List.length (dst tbl))%nat.

Definition name (tbl : tz_table) : string := tz_name tbl.

(** [year-start_year] is an [int] subtraction, wrapped like the other
    signed arithmetic. *)
Definition dst_start (tbl : tz_table) (y : Z) : res utctime :=
  if is_dst tbl then (p <- vec_at (dst tbl) (wrap32 (y - start_year tbl)) ;; Ok (start p))
  else Ok no_utctime.

Definition dst_end (tbl : tz_table) (y : Z) : res utctime :=
  if is_dst tbl then (p <- vec_at (dst tbl) (wrap32 (y - start_year tbl)) ;; Ok (end_ p))
  else Ok no_utctime.

Definition dst_offset (tbl : tz_table) (t : utctime) : res utctimespan :=
  if negb (is_dst tbl) then Ok 0
  else
    y <- utc_year t ;;
    if wrap32 (Z.of_nat (List.length (dst tbl))) <=? wrap32 (y - start_year tbl) then Ok 0
    else
      s <- dst_start tbl y ;;
      e <- dst_end tbl y ;;
      if (if s <? e then (s <=? t) && (t <? e) else (t <? e) || (s <=? t))
      then vec_at (dt tbl) (wrap32 (y - start_year tbl))
      else Ok 0.

(** ** More of utcperiod, calendar and tz_info (lines 31, 83, 162-217, 321) *)

Definition deltaminutes (m : Z) : utctimespan := m * 60 * 1000000.

(** [calendar::hms_seconds] *)
Definition hms_seconds (h m s : Z) : utctimespan :=
  deltahours h + deltaminutes m + s * 1000000.

(** [utcperiod::contains(const utcperiod&)] *)
Definition contains_p (self p : utcperiod) : bool :=
  valid self && valid p && (start self <=? start p) && (end_ p <=? end_ self).

(** [tz_info<tz_table>] *)
Record tz_info := mk_tz_info { base_tz : utctimespan; tz : tz_table }.

(** [tz_info(utctimespan base_tz)] *)
Definition tz_info_of_offset (base : utctimespan) : tz_info :=
  mk_tz_info base (tz_table_of_offset base).

Definition tz_info_name (i : tz_info) : string := name (tz i).
Definition base_offset (i : tz_info) : utctimespan := base_tz i.

Definition utc_offset (i : tz_info) (t : utctime) : res utctimespan :=
  d <- dst_offset (tz i) t ;; Ok (base_tz i + d).

Definition tz_info_is_dst (i : tz_info) (t : utctime) : res bool :=
  d <- dst_offset (tz i) t ;; Ok (negb (d =? 0)).

(** [explicit calendar(int tz_s = 0)]: the calendar's shared tz_info. *)
Definition calendar_of_seconds (tz_s : Z) : tz_info :=
  tz_info_of_offset (tz_s * 1000000).

(** [std::map<string, shared_ptr<tz_info_t>>], as its entries in key order;
    [find] yields the entry with an equal key. *)
Fixpoint map_find {A : Type} (m : list (string * A)) (k : string) : option A :=
  match m with
  | [] => None
  | (k', v) :: m' => if String.eqb k k' then Some v else map_find m' k
  end.

Record tz_info_database := mk_tz_info_database {
  region_tz_map : list (string * tz_info);
  name_tz_map : list (string * tz_info) }.

Definition tz_info_from_region (db : tz_info_database) (region_name : string) : res tz_info :=
  match map_find (region_tz_map db) region_name with
  | Some v => Ok v
  | None => Throw ("tz region '" ++ region_name ++ "' not found")%string
  end.

Definition tz_info_from_name (db : tz_info_database) (nm : string) : res tz_info :=
  match map_find (name_tz_map db) nm with
  | Some v => Ok v
  | None => Throw ("tz name '" ++ nm ++ "' not found")%string
  end.

(** ** Sample inputs *)

(** A rule provider with one hour of DST from April to October of every year
    (day boundaries counted from the epoch, 1 April taken as day 90 and
    1 October as day 273 of a 365-day year); only its shape matters below. *)
Definition sample_provider : tz_provider :=
  mk_tz_provider
    (fun y => ((y - 1970) * 365 + 90) * DAY)
    (fun y => ((y - 1970) * 365 + 273) * DAY)
    (fun _ => deltahours 1)
    "CET-1CEST".

(** The table the template constructor builds with its defaults 1905 and 200. *)
Definition sample_table : tz_table := tz_table_of_provider sample_provider 1905 200.

Definition sample_db : tz_info_database :=
  mk_tz_info_database
    [("Europe/Oslo"%string, mk_tz_info (deltahours 1) sample_table);
     ("UTC"%string, tz_info_of_offset 0)]
    [("CET"%string, mk_tz_info (deltahours 1) sample_table)].

(** * Helper lemmas *)

Lemma wrap64_id : forall z, in_int64 z -> wrap64 z = z.
Proof.
  unfold in_int64, int64_min, int64_max, wrap64; intros z Hz.
  rewrite Z.mod_small; lia.
Qed.

Lemma YMDhms_is_valid_iff : forall Y M D h m s,
  YMDhms_is_valid (mk_YMDhms Y M D h m s) = true <->
  (Y = 0 /\ M = 0 /\ D = 0 /\ h = 0 /\ m = 0 /\ s = 0) \/
  (-9999 <= Y <= 9999 /\ 1 <= M <= 12 /\ 1 <= D <= 31 /\
   0 <= h <= 23 /\ 0 <= m <= 59 /\ 0 <= s <= 59).
Proof.
  intros. unfold YMDhms_is_valid, YMDhms_is_null, YMDhms_is_valid_coordinates,
    YEAR_MIN, YEAR_MAX; simpl.
  rewrite orb_true_iff, negb_true_iff, !orb_false_iff, !andb_true_iff, !Z.eqb_eq,
    !Z.ltb_ge.
  tauto.
Qed.

Lemma YWdhms_is_valid_iff : forall Y W wd h m s,
  YWdhms_is_valid (mk_YWdhms Y W wd h m s) = true <->
  (Y = 0 /\ W = 0 /\ wd = 0 /\ h = 0 /\ m = 0 /\ s = 0) \/
  (-9999 <= Y <= 9999 /\ 1 <= W <= 53 /\ 1 <= wd <= 7 /\
   0 <= h <= 23 /\ 0 <= m <= 59 /\ 0 <= s <= 59).
Proof.
  intros. unfold YWdhms_is_valid, YWdhms_is_null, YWdhms_is_valid_coordinates,
    YEAR_MIN, YEAR_MAX; simpl.
  rewrite orb_true_iff, negb_true_iff, !orb_false_iff, !andb_true_iff, !Z.eqb_eq,
    !Z.ltb_ge.
  tauto.
Qed.

(** The upper bound of the year window is guarded: a year at or past
    [start_year + dst.size()] yields a zero offset. *)
Lemma wrap32_id : forall z, in_int32 z -> wrap32 z = z.
Proof.
  unfold in_int32, wrap32; intros z Hz.
  rewrite Z.mod_small; lia.
Qed.

Lemma dst_offset_after_table_zero : forall tbl t y,
  Z.of_nat (List.length (dst tbl)) < 2 ^ 31 ->
  utc_year t = Ok y ->
  start_year tbl + Z.of_nat (List.length (dst tbl)) <= y ->
  y - start_year tbl < 2 ^ 31 ->
  dst_offset tbl t = Ok 0.
Proof.
  intros tbl t y Hlen Hy Hge Hd. unfold dst_offset.
  destruct (is_dst tbl); [|reflexivity]. simpl. rewrite Hy. simpl.
  rewrite !wrap32_id by (unfold in_int32; lia).
  replace (_ <=? _) with true by (symmetry; apply Z.leb_le; lia).
  reflexivity.
Qed.

(** * Claims *)

(** C7: the sentinels.  [min_utctime], the negation of the smallest [int64_t]
    taken modulo 2^64, is the smallest [int64_t] itself and equals
    [no_utctime]; [is_valid t] is false exactly when [t] is that value. *)
Theorem sentinel_none_equals_min :
  min_utctime = no_utctime /\ min_utctime = int64_min /\
  max_utctime = int64_max /\
  (forall t, is_valid t = false <-> t = min_utctime).
Proof.
  assert (E : min_utctime = no_utctime) by reflexivity.
  split; [exact E|]. split; [reflexivity|]. split; [reflexivity|].
  intro t. rewrite E. unfold is_valid.
  rewrite negb_false_iff, Z.eqb_eq. tauto.
Qed.

(** C9: the checking constructors of [YMDhms] and [YWdhms] succeed, keeping
    the coordinates, exactly when the coordinates are all zero (null) or
    within the documented ranges, and throw otherwise. *)
Theorem coordinates_ctor_throws_iff_out_of_range : forall a b c h m s,
  (((a = 0 /\ b = 0 /\ c = 0 /\ h = 0 /\ m = 0 /\ s = 0) \/
    (-9999 <= a <= 9999 /\ 1 <= b <= 12 /\ 1 <= c <= 31 /\
     0 <= h <= 23 /\ 0 <= m <= 59 /\ 0 <= s <= 59)) ->
   make_YMDhms a b c h m s = Ok (mk_YMDhms a b c h m s)) /\
  (~ ((a = 0 /\ b = 0 /\ c = 0 /\ h = 0 /\ m = 0 /\ s = 0) \/
      (-9999 <= a <= 9999 /\ 1 <= b <= 12 /\ 1 <= c <= 31 /\
       0 <= h <= 23 /\ 0 <= m <= 59 /\ 0 <= s <= 59)) ->
   is_throw (make_YMDhms a b c h m s) = true) /\
  (((a = 0 /\ b = 0 /\ c = 0 /\ h = 0 /\ m = 0 /\ s = 0) \/
    (-9999 <= a <= 9999 /\ 1 <= b <= 53 /\ 1 <= c <= 7 /\
     0 <= h <= 23 /\ 0 <= m <= 59 /\ 0 <= s <= 59)) ->
   make_YWdhms a b c h m s = Ok (mk_YWdhms a b c h m s)) /\
  (~ ((a = 0 /\ b = 0 /\ c = 0 /\ h = 0 /\ m = 0 /\ s = 0) \/
      (-9999 <= a <= 9999 /\ 1 <= b <= 53 /\ 1 <= c <= 7 /\
       0 <= h <= 23 /\ 0 <= m <= 59 /\ 0 <= s <= 59)) ->
   is_throw (make_YWdhms a b c h m s) = true).
Proof.
  intros a b c h m s.
  pose proof (YMDhms_is_valid_iff a b c h m s) as HD.
  pose proof (YWdhms_is_valid_iff a b c h m s) as HW.
  unfold make_YMDhms, make_YWdhms.
  repeat split; intro H.
  - rewrite (proj2 HD H). reflexivity.
  - destruct (YMDhms_is_valid _) eqn:E; [exfalso; apply H, HD; reflexivity|reflexivity].
  - rewrite (proj2 HW H). reflexivity.
  - destruct (YWdhms_is_valid _) eqn:E; [exfalso; apply H, HW; reflexivity|reflexivity].
Qed.

(** C10: a tz_table with an empty dst table reports [is_dst() = false] and
    answers [dst_start(y)] and [dst_end(y)] with [no_utctime] for every year,
    without error. *)
Theorem dst_less_table_start_end_none : forall tbl y,
  dst tbl = [] ->
  dst_start tbl y = Ok no_utctime /\ dst_end tbl y = Ok no_utctime /\ is_dst tbl = false.
Proof.
  intros tbl y H. unfold dst_start, dst_end, is_dst. rewrite H. auto.
Qed.

Lemma dst_less_table_start_end_none_witness :
  dst (tz_table_of_offset (deltahours 5 + 30 * 60 * SECOND)) = [] /\
  dst_start (tz_table_of_offset (deltahours 5 + 30 * 60 * SECOND)) 2016 = Ok no_utctime /\
  dst_end (tz_table_of_offset (deltahours 5 + 30 * 60 * SECOND)) 2016 = Ok no_utctime /\
  is_dst (tz_table_of_offset (deltahours 5 + 30 * 60 * SECOND)) = false /\
  dst tz_table_default = [] /\
  dst_start tz_table_default (-9999) = Ok no_utctime.
Proof.
  split; [reflexivity|].
  split; [apply (dst_less_table_start_end_none _ 2016); reflexivity|].
  split; [apply (dst_less_table_start_end_none _ 2016); reflexivity|].
  split; [apply (dst_less_table_start_end_none _ 2016); reflexivity|].
  split; [reflexivity|].
  apply (dst_less_table_start_end_none _ (-9999)); reflexivity.
Defined.

(** C6 (code defect): the fixed-offset constructor formats the hour with
    [%+02d], whose width of 2 counts the sign, so +5h30m gives ["UTC+5"] and
    not ["UTC+05"], while the default constructor writes ["UTC+00"]. *)
Theorem tz_table_of_offset_name_one_digit :
  name (tz_table_of_offset (deltahours 5 + 30 * 60 * SECOND)) = "UTC+5"%string /\
  dst (tz_table_of_offset (deltahours 5 + 30 * 60 * SECOND)) = [] /\
  name (tz_table_of_offset 0) = "UTC+0"%string /\
  name tz_table_default = "UTC+00"%string.
Proof. repeat split; reflexivity. Qed.

(** C2 (code defect): [day_number(t)] converts microseconds to seconds with
    [duration_cast], which truncates toward zero, so [t = -1] microsecond
    (1969-12-31T23:59:59.999999) gets day 2440588 (1970-01-01), while
    flooring the seconds gives 2440587; [utc_year] then reports 1970. *)
Theorem day_number_truncates_negative_subsecond :
  day_number_t (-1) = 2440588 /\
  (UnixSecond + (-1) / 1000000) / 86400 = 2440587 /\
  utc_year (-1) = Ok 1970.
Proof. repeat split; vm_compute; reflexivity. Qed.

(** C1 (code defect): [dst_offset] only guards the upper end of the year
    window.  For 1900-01-01T00:00Z, before [start_year = 1905], it goes on to
    [dst_start(1900)], which reads [dst[-5]]: an out-of-range access, not a
    zero offset. *)
Theorem dst_offset_before_start_year_out_of_range :
  utc_year (-2208988800 * SECOND) = Ok 1900 /\
  dst_start sample_table 1900 = Undefined /\
  dst_offset sample_table (-2208988800 * SECOND) = Undefined.
Proof. repeat split; vm_compute; reflexivity. Qed.

(** C8 (counterexample): [min_utctime] is [no_utctime], so [utc_year]
    throws on it; the branch returning [YEAR_MIN] is never reached. *)
Theorem utc_year_min_utctime_throws :
  utc_year min_utctime = Throw "year of no_utctime" /\
  utc_year min_utctime <> Ok YEAR_MIN.
Proof. split; [reflexivity | discriminate]. Qed.

(** C8 (amended): [utc_year t] throws exactly when [t] is [no_utctime] (the
    value shared with [min_utctime]), otherwise it yields a year;
    [utc_year max_utctime = 9999]. *)
Theorem utc_year_throws_iff_none : forall t,
  (is_throw (utc_year t) = true <-> t = no_utctime) /\
  (t <> no_utctime -> exists y, utc_year t = Ok y) /\
  utc_year max_utctime = Ok 9999 /\
  utc_year min_utctime = Throw "year of no_utctime".
Proof.
  intro t. unfold utc_year.
  destruct (Z.eqb_spec t no_utctime) as [E|NE].
  - repeat split; auto; intro H; contradiction.
  - assert (R : exists y, (if t =? max_utctime then Ok YEAR_MAX
                else if t =? min_utctime then Ok YEAR_MIN
                else Ok (year (from_day_number (day_number_t t mod 2 ^ 64)))) = Ok y).
    { destruct (t =? max_utctime); [eexists; reflexivity|].
      destruct (t =? min_utctime); eexists; reflexivity. }
    destruct R as [y Hy]. rewrite Hy.
    repeat split; try reflexivity.
    + discriminate.
    + intro H. contradiction.
    + intros _. exists y. reflexivity.
Qed.

(** Case split on every integer comparison in the goal and the context. *)
Ltac split_cmps :=
  repeat match goal with
  | |- context [Z.ltb ?a ?b] => destruct (Z.ltb_spec a b)
  | |- context [Z.leb ?a ?b] => destruct (Z.leb_spec a b)
  | |- context [Z.eqb ?a ?b] => destruct (Z.eqb_spec a b)
  | H : context [Z.ltb ?a ?b] |- _ => destruct (Z.ltb_spec a b)
  | H : context [Z.leb ?a ?b] |- _ => destruct (Z.leb_spec a b)
  | H : context [Z.eqb ?a ?b] |- _ => destruct (Z.eqb_spec a b)
  end; simpl in *.

(** For a positive divisor, the branches of [floor] all compute
    [dt * (t / dt)] with [/] flooring, before the 64-bit wrap. *)
Lemma floor_pos_wrap : forall t dt, 0 < dt -> floor t dt = wrap64 (dt * (t / dt)).
Proof.
  intros t dt Hdt. unfold floor.
  rewrite (proj2 (Z.eqb_neq dt 0)) by lia. cbv zeta.
  destruct (0 <? Z.lxor t dt) eqn:X.
  - apply Z.ltb_lt in X.
    assert (0 <= t) by (apply (Z.lxor_nonneg t dt); lia).
    rewrite Z.quot_div_nonneg by lia. reflexivity.
  - apply Z.ltb_ge in X.
    destruct (Z.le_gt_cases 0 t) as [Tn|Tn].
    + assert (X0 : Z.lxor t dt = 0).
      { assert (0 <= Z.lxor t dt) by (apply Z.lxor_nonneg; lia). lia. }
      apply (proj1 (Z.lxor_eq_0_iff t dt)) in X0. subst t.
      rewrite Z.rem_same, Z.quot_same, Z.div_same by lia. reflexivity.
    + pose proof (Z.quot_rem' t dt) as Eq.
      pose proof (Z.rem_nonpos t dt ltac:(lia) ltac:(lia)) as Rn.
      pose proof (Z.rem_bound_abs t dt ltac:(lia)) as Rb.
      rewrite (Z.abs_eq dt) in Rb by lia. rewrite Z.abs_neq in Rb by lia.
      set (q := Z.quot t dt) in *. set (r := Z.rem t dt) in *.
      destruct (r =? 0) eqn:R; simpl.
      * apply Z.eqb_eq in R. do 2 f_equal. apply Z.div_unique with 0; lia.
      * apply Z.eqb_neq in R. do 2 f_equal. apply Z.div_unique with (r + dt); lia.
Qed.

(** C3 (counterexample): one microsecond above the smallest [int64_t], the
    greatest multiple of a second below [t] is not representable; the product
    [den * (quot - 1)] wraps to a large positive count, above [t]. *)
Theorem floor_wraps_near_min :
  floor (-9223372036854775807) SECOND = 9223372036854551616 /\
  -9223372036854775807 < floor (-9223372036854775807) SECOND.
Proof. split; vm_compute; reflexivity. Qed.

(** C3 (amended): for an instant [t] and [dt > 0] whose greatest multiple
    [dt * floor(t / dt)] is representable, [floor t dt] is that multiple:
    [floor t dt <= t < floor t dt + dt] and [dt] divides it.  Also
    [floor t 0 = t], [floor(-1 us, 1 s) = -1 s] and [floor(-1 s, 1 s) = -1 s]. *)
Theorem floor_greatest_multiple : forall t dt,
  in_int64 t -> 0 < dt -> int64_min <= dt * (t / dt) ->
  floor t dt = dt * (t / dt) /\
  floor t dt <= t < floor t dt + dt /\
  (dt | floor t dt) /\
  floor t 0 = t /\
  floor (-1) SECOND = -1000000 /\
  floor (-1000000) SECOND = -1000000.
Proof.
  intros t dt Ht Hdt Hr.
  assert (E : floor t dt = dt * (t / dt)).
  { rewrite floor_pos_wrap by exact Hdt. apply wrap64_id.
    unfold in_int64 in *. pose proof (Z.mul_div_le t dt Hdt). lia. }
  rewrite E.
  pose proof (Z.mul_div_le t dt Hdt).
  pose proof (Z.div_mod t dt ltac:(lia)).
  pose proof (Z.mod_pos_bound t dt Hdt).
  repeat split;
    first [ lia | apply Z.divide_factor_l | vm_compute; reflexivity ].
Qed.

Lemma floor_greatest_multiple_witness :
  in_int64 (-1) /\ 0 < SECOND /\ int64_min <= SECOND * (-1 / SECOND) /\
  floor (-1) SECOND = SECOND * (-1 / SECOND) /\
  floor (-1) SECOND <= -1 < floor (-1) SECOND + SECOND.
Proof.
  assert (H1 : in_int64 (-1)) by (unfold in_int64, int64_min, int64_max; lia).
  assert (H2 : 0 < SECOND) by reflexivity.
  assert (H3 : int64_min <= SECOND * (-1 / SECOND)) by (vm_compute; discriminate).
  destruct (floor_greatest_multiple (-1) SECOND H1 H2 H3) as [A [B _]].
  repeat split; assumption.
Defined.

(** C4 (counterexample): a period starting at [no_utctime] is invalid, so
    [contains] answers false by its guard even for [t] with [start <= t < end]. *)
Theorem contains_none_start_is_false :
  contains (mk_utcperiod no_utctime 0) (-1) = false /\
  no_utctime <= -1 < 0.
Proof. split; [reflexivity | unfold no_utctime, int64_min; lia]. Qed.

(** C4 (amended): for a period whose start is not [no_utctime],
    [contains p t] holds exactly when [start <= t < end]; a period starting at
    [no_utctime] contains no instant. *)
Theorem contains_half_open : forall p t,
  in_int64 (start p) -> in_int64 (end_ p) -> in_int64 t ->
  (start p <> no_utctime -> (contains p t = true <-> start p <= t < end_ p)) /\
  (start p = no_utctime -> contains p t = false).
Proof.
  intros [s e] t Hs He Ht; unfold in_int64, contains, valid, is_valid, no_utctime in *;
    simpl in *.
  split; intro Hn; split_cmps; try rewrite andb_true_iff, Z.leb_le, Z.ltb_lt;
    try split; intros; try lia; try discriminate; try reflexivity.
Qed.

Lemma contains_half_open_witness :
  contains (mk_utcperiod 0 SECOND) 0 = true /\ contains (mk_utcperiod 0 SECOND) SECOND = false.
Proof.
  assert (R : forall z, 0 <= z <= SECOND -> in_int64 z)
    by (unfold in_int64, int64_min, int64_max, SECOND; intros; lia).
  destruct (contains_half_open (mk_utcperiod 0 SECOND) 0 (R 0 ltac:(unfold SECOND; lia))
              (R SECOND ltac:(unfold SECOND; lia)) (R 0 ltac:(unfold SECOND; lia)))
    as [H0 _].
  destruct (contains_half_open (mk_utcperiod 0 SECOND) SECOND (R 0 ltac:(unfold SECOND; lia))
              (R SECOND ltac:(unfold SECOND; lia)) (R SECOND ltac:(unfold SECOND; lia)))
    as [H1 _].
  split.
  - apply H0; simpl; [discriminate | unfold SECOND; lia].
  - apply not_true_is_false; intro E.
    apply H1 in E; simpl in *; [lia | discriminate].
Defined.

(** C5 (counterexample): [0, 5 s) and [5 s, 10 s) touch but do not overlap;
    their intersection is the empty but valid period [5 s, 5 s), not the
    default marker. *)
Theorem intersection_touching_is_valid :
  overlaps (mk_utcperiod 0 (5 * SECOND)) (mk_utcperiod (5 * SECOND) (10 * SECOND)) = false /\
  intersection (mk_utcperiod 0 (5 * SECOND)) (mk_utcperiod (5 * SECOND) (10 * SECOND))
    = mk_utcperiod (5 * SECOND) (5 * SECOND) /\
  valid (intersection (mk_utcperiod 0 (5 * SECOND)) (mk_utcperiod (5 * SECOND) (10 * SECOND)))
    = true.
Proof. repeat split; reflexivity. Qed.

(** C5 (amended): for valid periods [a] and [b], [intersection a b] is valid
    exactly when they overlap or touch ([a.end = b.start] or
    [b.end = a.start]); touching periods give the empty period [(t, t)] at
    the shared endpoint [t]; otherwise the result is the default period
    [(no_utctime, no_utctime)]. *)
Theorem intersection_valid_iff_overlap_or_touch : forall a b,
  valid a = true -> valid b = true ->
  (valid (intersection a b) = true <->
     overlaps a b = true \/ end_ a = start b \/ end_ b = start a) /\
  (valid (intersection a b) = false -> intersection a b = utcperiod_default) /\
  (end_ a = start b -> intersection a b = mk_utcperiod (start b) (start b)) /\
  (end_ b = start a -> intersection a b = mk_utcperiod (start a) (start a)).
Proof.
  intros [sa ea] [sb eb] Ha Hb.
  assert (O : sa <= ea /\ sb <= eb).
  { unfold valid in Ha, Hb; simpl in Ha, Hb.
    rewrite !andb_true_iff, !Z.leb_le in Ha, Hb. tauto. }
  split; [|split]; [| |split; simpl; intros ->; unfold intersection, std_max, std_min; simpl;
    split_cmps; f_equal; lia].
  - unfold valid, intersection, overlaps, std_max, std_min, utcperiod_default in *; simpl in *.
    split_cmps; try discriminate; split; intros; try reflexivity;
      intuition (try lia; try discriminate).
  - unfold valid, intersection, overlaps, std_max, std_min, utcperiod_default in *; simpl in *.
    split_cmps; try discriminate; intros; try reflexivity; lia.
Qed.

Lemma intersection_valid_iff_overlap_or_touch_witness :
  intersection (mk_utcperiod 0 (5 * SECOND)) (mk_utcperiod (5 * SECOND) (10 * SECOND))
    = mk_utcperiod (5 * SECOND) (5 * SECOND) /\
  valid (intersection (mk_utcperiod 0 (5 * SECOND)) (mk_utcperiod (5 * SECOND) (10 * SECOND)))
    = true /\
  intersection (mk_utcperiod 0 SECOND) (mk_utcperiod (2 * SECOND) (3 * SECOND))
    = utcperiod_default.
Proof.
  split; [|split].
  - apply (proj1 (proj2 (proj2 (intersection_valid_iff_overlap_or_touch
             (mk_utcperiod 0 (5 * SECOND)) (mk_utcperiod (5 * SECOND) (10 * SECOND))
             eq_refl eq_refl)))).
    reflexivity.
  - apply (proj2 (proj1 (intersection_valid_iff_overlap_or_touch
             (mk_utcperiod 0 (5 * SECOND)) (mk_utcperiod (5 * SECOND) (10 * SECOND))
             eq_refl eq_refl))).
    right; left; reflexivity.
  - apply (proj1 (proj2 (intersection_valid_iff_overlap_or_touch
             (mk_utcperiod 0 SECOND) (mk_utcperiod (2 * SECOND) (3 * SECOND))
             eq_refl eq_refl))).
    reflexivity.
Defined.

(** * Further properties of the code *)

(** For a negative divisor the branches of [floor] compute [dt * (t / dt)]
    with [/] flooring, i.e. rounding the instant up to a multiple of [|dt|]. *)
Lemma floor_neg_wrap : forall t dt, dt < 0 -> floor t dt = wrap64 (dt * (t / dt)).
Proof.
  intros t dt Hdt. unfold floor.
  rewrite (proj2 (Z.eqb_neq dt 0)) by lia. cbv zeta.
  pose proof (Z.quot_rem' t dt) as Eq.
  pose proof (Z.rem_bound_abs t dt ltac:(lia)) as Rb.
  rewrite (Z.abs_neq dt) in Rb by lia.
  destruct (0 <? Z.lxor t dt) eqn:X.
  - apply Z.ltb_lt in X.
    assert (t < 0).
    { destruct (Z.le_gt_cases 0 t); [|lia].
      assert (0 <= dt) by (apply (Z.lxor_nonneg t dt); lia). lia. }
    pose proof (Z.rem_nonpos t dt ltac:(lia) ltac:(lia)) as Rn.
    rewrite Z.abs_neq in Rb by lia.
    do 2 f_equal. apply Z.div_unique with (Z.rem t dt); lia.
  - apply Z.ltb_ge in X.
    destruct (Z.le_gt_cases 0 t) as [Tn|Tn].
    + pose proof (Z.rem_nonneg t dt ltac:(lia) Tn) as Rn.
      rewrite Z.abs_eq in Rb by lia.
      set (q := Z.quot t dt) in *. set (r := Z.rem t dt) in *.
      destruct (r =? 0) eqn:R; simpl.
      * apply Z.eqb_eq in R. do 2 f_equal. apply Z.div_unique with 0; lia.
      * apply Z.eqb_neq in R. do 2 f_equal. apply Z.div_unique with (r + dt); lia.
    + assert (X0 : Z.lxor t dt = 0).
      { assert (0 <= Z.lxor t dt) by (apply Z.lxor_nonneg; lia). lia. }
      apply (proj1 (Z.lxor_eq_0_iff t dt)) in X0. subst t.
      rewrite Z.rem_same, Z.quot_same, Z.div_same by lia. reflexivity.
Qed.

Lemma floor_nonzero_wrap : forall t dt, dt <> 0 -> floor t dt = wrap64 (dt * (t / dt)).
Proof.
  intros t dt H. destruct (proj1 (Z.lt_gt_cases dt 0) H) as [N|P].
  - apply floor_neg_wrap; exact N.
  - apply floor_pos_wrap; lia.
Qed.

(** X1: with a negative [dt], [floor] rounds up: it returns the least
    multiple of [dt] that is at least [t], when that multiple is
    representable (the pair [t = INT64_MIN], [dt = -1] overflows the C++
    division and is left out). *)
Theorem floor_negative_dt_is_ceiling : forall t dt,
  in_int64 t -> dt < 0 -> ~ (t = int64_min /\ dt = -1) ->
  dt * (t / dt) <= int64_max ->
  floor t dt = dt * (t / dt) /\ t <= floor t dt < t - dt /\ (dt | floor t dt).
Proof.
  intros t dt Ht Hdt _ Hr.
  pose proof (Z.div_mod t dt ltac:(lia)).
  pose proof (Z.mod_neg_bound t dt Hdt).
  assert (E : floor t dt = dt * (t / dt)).
  { rewrite floor_neg_wrap by exact Hdt. apply wrap64_id.
    unfold in_int64 in *. lia. }
  rewrite E. repeat split; try lia. apply Z.divide_factor_l.
Qed.

Lemma floor_negative_dt_is_ceiling_witness :
  floor (-1) (- SECOND) = 0 /\ floor (- SECOND - 1) (- SECOND) = - SECOND.
Proof.
  assert (R : in_int64 (-1)) by (unfold in_int64, int64_min, int64_max; lia).
  assert (R' : in_int64 (- SECOND - 1))
    by (unfold in_int64, int64_min, int64_max, SECOND; lia).
  split.
  - destruct (floor_negative_dt_is_ceiling (-1) (- SECOND) R ltac:(reflexivity)
      ltac:(unfold int64_min; lia) ltac:(vm_compute; discriminate)) as [E _].
    rewrite E. reflexivity.
  - destruct (floor_negative_dt_is_ceiling (- SECOND - 1) (- SECOND) R' ltac:(reflexivity)
      ltac:(unfold int64_min; lia) ltac:(vm_compute; discriminate)) as [E _].
    rewrite E. reflexivity.
Defined.

(** X2: an instant that is already a multiple of a nonzero [dt] is left
    unchanged by [floor] (again leaving out [INT64_MIN] with [dt = -1]). *)
Theorem floor_fixes_multiples : forall t dt,
  in_int64 t -> dt <> 0 -> ~ (t = int64_min /\ dt = -1) -> (dt | t) ->
  floor t dt = t.
Proof.
  intros t dt Ht Hdt _ Hk. destruct Hk as [k ->].
  rewrite floor_nonzero_wrap by exact Hdt.
  rewrite Z.div_mul by exact Hdt.
  rewrite Z.mul_comm. apply wrap64_id; exact Ht.
Qed.

Lemma floor_fixes_multiples_witness :
  floor (-3 * SECOND) SECOND = -3 * SECOND /\ floor (7 * DAY) (- DAY) = 7 * DAY.
Proof.
  split.
  - apply floor_fixes_multiples;
      [unfold in_int64, int64_min, int64_max, SECOND; lia | discriminate
      | unfold int64_min, SECOND; lia | exists (-3); reflexivity].
  - apply floor_fixes_multiples;
      [vm_compute; split; discriminate | discriminate
      | unfold int64_min; vm_compute; lia | exists (-7); lia].
Defined.

(** X3: [floor] is idempotent for every nonzero [dt] whose result is
    representable. *)
Theorem floor_idempotent : forall t dt,
  dt <> 0 -> ~ (dt = -1 /\ t = int64_min) -> in_int64 (dt * (t / dt)) ->
  floor (floor t dt) dt = floor t dt.
Proof.
  intros t dt Hdt Hx Hr.
  rewrite (floor_nonzero_wrap t dt Hdt), (wrap64_id _ Hr).
  rewrite floor_nonzero_wrap by exact Hdt.
  rewrite (Z.mul_comm dt (t / dt)) in *. rewrite Z.div_mul by exact Hdt.
  rewrite (Z.mul_comm dt (t / dt)). apply wrap64_id; exact Hr.
Qed.

Lemma floor_idempotent_witness :
  floor (floor (-1) SECOND) SECOND = floor (-1) SECOND.
Proof.
  apply floor_idempotent;
    [discriminate | unfold SECOND; lia | vm_compute; split; discriminate].
Defined.

(** X4: [calendar::day_number(utctime)] never decreases as the instant grows. *)
Theorem day_number_monotone : forall t1 t2, t1 <= t2 -> day_number_t t1 <= day_number_t t2.
Proof.
  intros t1 t2 H. unfold day_number_t, duration_cast_seconds.
  apply Z.quot_le_mono; [vm_compute; reflexivity|].
  apply Z.add_le_mono_l, Z.quot_le_mono; lia.
Qed.

Lemma day_number_monotone_witness : day_number_t (-1) <= day_number_t 0.
Proof. apply day_number_monotone; lia. Defined.

(** X5: for non-negative instants, and for whole-second instants from the
    start of the Julian day count on, [day_number(t)] is [UnixDay] plus the
    floored number of whole days since the epoch. *)
Theorem day_number_exact : forall t,
  0 <= t \/ (t mod SECOND = 0 /\ - UnixSecond * SECOND <= t) ->
  day_number_t t = UnixDay + t / DAY.
Proof.
  intros t H. unfold day_number_t, duration_cast_seconds.
  change (Z.quot DAY 1000000) with 86400.
  assert (Q : Z.quot t 1000000 = t / 1000000 /\ 0 <= UnixSecond + t / 1000000).
  { destruct H as [P | [M L]].
    - split; [apply Z.quot_div_nonneg; lia|].
      assert (0 <= t / 1000000) by (apply Z.div_pos; lia). unfold UnixSecond, UnixDay; lia.
    - unfold SECOND in *.
      pose proof (Z.div_mod t 1000000 ltac:(lia)) as D. rewrite M, Z.add_0_r in D.
      split.
      + rewrite D at 1. rewrite Z.mul_comm. apply Z.quot_mul. lia.
      + unfold UnixSecond, UnixDay in *. lia. }
  destruct Q as [Q P]. rewrite Q, Z.quot_div_nonneg by lia.
  unfold UnixSecond. rewrite Z.add_comm, Z.div_add by lia.
  rewrite Z.div_div by lia. change DAY with (1000000 * 86400). ring.
Qed.

Lemma day_number_exact_witness :
  day_number_t (- DAY) = UnixDay - 1 /\ day_number_t (DAY + 1) = UnixDay + 1.
Proof.
  split.
  - rewrite day_number_exact; [reflexivity|].
    right; split; [reflexivity | vm_compute; discriminate].
  - rewrite day_number_exact; [reflexivity|]. left; vm_compute; discriminate.
Defined.

(** X6: [hms_seconds(h, m, s)] of a valid time of day is
    [(3600 h + 60 m + s)] seconds and lies in [[0, DAY)]. *)
Theorem hms_seconds_within_day : forall h m s,
  0 <= h <= 23 -> 0 <= m <= 59 -> 0 <= s <= 59 ->
  hms_seconds h m s = (3600 * h + 60 * m + s) * SECOND /\ 0 <= hms_seconds h m s < DAY.
Proof.
  intros h m s Hh Hm Hs. unfold hms_seconds, DAY, deltahours, deltaminutes, SECOND. lia.
Qed.

Lemma hms_seconds_within_day_witness : 0 <= hms_seconds 23 59 59 < DAY.
Proof. apply (hms_seconds_within_day 23 59 59); lia. Defined.

Lemma std_max_eq : forall a b, std_max a b = Z.max a b.
Proof. intros a b. unfold std_max. destruct (Z.ltb_spec a b); lia. Qed.

Lemma std_min_eq : forall a b, std_min a b = Z.min a b.
Proof. intros a b. unfold std_min. destruct (Z.ltb_spec b a); lia. Qed.

Lemma valid_iff : forall p,
  valid p = true <-> start p <> no_utctime /\ end_ p <> no_utctime /\ start p <= end_ p.
Proof.
  intros p. unfold valid.
  rewrite !andb_true_iff, !negb_true_iff, !Z.eqb_neq, Z.leb_le. tauto.
Qed.

Lemma contains_iff : forall p t,
  contains p t = true <-> t <> no_utctime /\ valid p = true /\ start p <= t < end_ p.
Proof.
  intros p t. unfold contains, is_valid.
  destruct (Z.eqb_spec t no_utctime), (valid p); simpl;
    rewrite ?andb_true_iff, ?Z.leb_le, ?Z.ltb_lt; intuition (try discriminate).
Qed.

Lemma contains_p_iff : forall p q,
  contains_p p q = true <->
  valid p = true /\ valid q = true /\ start p <= start q /\ end_ q <= end_ p.
Proof.
  intros p q. unfold contains_p. rewrite !andb_true_iff, Z.leb_le, Z.leb_le. tauto.
Qed.

(** The intersection of two valid periods, read off as propositions. *)
Lemma intersection_cases : forall a b,
  valid a = true -> valid b = true ->
  (Z.max (start a) (start b) <= Z.min (end_ a) (end_ b) /\
   intersection a b = mk_utcperiod (Z.max (start a) (start b)) (Z.min (end_ a) (end_ b)) /\
   valid (intersection a b) = true) \/
  (Z.min (end_ a) (end_ b) < Z.max (start a) (start b) /\
   intersection a b = utcperiod_default).
Proof.
  intros [sa ea] [sb eb] Ha Hb. apply valid_iff in Ha, Hb. simpl in *.
  unfold intersection; simpl. rewrite std_max_eq, std_min_eq.
  destruct (Z.leb_spec (Z.max sa sb) (Z.min ea eb)) as [L|L]; [left|right]; auto.
  repeat split; auto. apply valid_iff; simpl; lia.
Qed.

(** X7: [utcperiod::overlaps] is symmetric. *)
Theorem overlaps_symmetric : forall a b, overlaps a b = overlaps b a.
Proof.
  intros [sa ea] [sb eb]. unfold overlaps; simpl.
  rewrite orb_comm. reflexivity.
Qed.

(** X8: [intersection] is commutative. *)
Theorem intersection_commutative : forall a b, intersection a b = intersection b a.
Proof.
  intros [sa ea] [sb eb]. unfold intersection; simpl.
  rewrite !std_max_eq, !std_min_eq, (Z.max_comm sb sa), (Z.min_comm eb ea).
  reflexivity.
Qed.

(** X9: for valid periods, an instant lies in their intersection exactly
    when it lies in both. *)
Theorem contains_intersection_iff_both : forall a b t,
  valid a = true -> valid b = true ->
  contains (intersection a b) t = contains a t && contains b t.
Proof.
  intros a b t Ha Hb. apply Bool.eq_iff_eq_true.
  rewrite andb_true_iff, !contains_iff.
  destruct (intersection_cases a b Ha Hb) as [[L [-> V]] | [L ->]]; simpl.
  - rewrite V. intuition lia.
  - split; [intros [_ [F _]]; discriminate|].
    intros [[_ [_ A]] [_ [_ B]]]. lia.
Qed.

Lemma contains_intersection_iff_both_witness :
  contains (intersection (mk_utcperiod 0 (5 * SECOND)) (mk_utcperiod (3 * SECOND) (9 * SECOND)))
    (4 * SECOND) = true.
Proof.
  rewrite contains_intersection_iff_both by reflexivity. reflexivity.
Defined.

(** X10: if period [p] contains period [q] ([utcperiod::contains(const
    utcperiod&)]), every instant [q] contains is contained in [p]. *)
Theorem contains_period_transfers_instants : forall p q t,
  contains_p p q = true -> contains q t = true -> contains p t = true.
Proof.
  intros p q t H1 H2. apply contains_p_iff in H1. apply contains_iff in H2.
  apply contains_iff. intuition lia.
Qed.

Lemma contains_period_transfers_instants_witness :
  contains (mk_utcperiod 0 DAY) SECOND = true.
Proof.
  apply (contains_period_transfers_instants _ (mk_utcperiod 0 (2 * SECOND)));
    reflexivity.
Defined.

(** X11: a valid intersection of valid periods is contained in each of them. *)
Theorem intersection_contained_in_both : forall a b,
  valid a = true -> valid b = true -> valid (intersection a b) = true ->
  contains_p a (intersection a b) = true /\ contains_p b (intersection a b) = true.
Proof.
  intros a b Ha Hb Hi.
  destruct (intersection_cases a b Ha Hb) as [[L [E V]] | [L E]];
    rewrite E in *; [|discriminate].
  rewrite !contains_p_iff; simpl. repeat split; auto; lia.
Qed.

Lemma intersection_contained_in_both_witness :
  contains_p (mk_utcperiod 0 (5 * SECOND))
    (intersection (mk_utcperiod 0 (5 * SECOND)) (mk_utcperiod (3 * SECOND) (9 * SECOND))) = true.
Proof. apply intersection_contained_in_both; reflexivity. Defined.

(** X12: the default period [(no_utctime, no_utctime)] is invalid, contains
    no instant, and overlaps no period with 64-bit endpoints. *)
Theorem default_period_empty : forall p t,
  in_int64 (start p) -> in_int64 (end_ p) ->
  valid utcperiod_default = false /\ contains utcperiod_default t = false /\
  overlaps utcperiod_default p = false /\ overlaps p utcperiod_default = false.
Proof.
  intros [s e] t Hs He. unfold in_int64 in *; simpl in *.
  assert (A : (no_utctime <=? s) = true) by (apply Z.leb_le; unfold no_utctime; lia).
  unfold overlaps, utcperiod_default; simpl. rewrite A, orb_true_r.
  repeat split.
  unfold contains. rewrite andb_false_r. reflexivity.
Qed.

Lemma default_period_empty_witness :
  overlaps utcperiod_default (mk_utcperiod 0 SECOND) = false.
Proof.
  apply (default_period_empty (mk_utcperiod 0 SECOND) 0);
    unfold in_int64, int64_min, int64_max, SECOND; simpl; lia.
Defined.

Lemma vec_at_years : forall (A : Type) (f : Z -> A) sy n i,
  0 <= i < Z.of_nat n ->
  vec_at (map f (map (fun k => sy + Z.of_nat k) (seq 0 n))) i = Ok (f (sy + i)).
Proof.
  intros A f sy n i Hi. unfold vec_at.
  rewrite !length_map, length_seq.
  replace ((i <? 0) || (Z.of_nat n <=? i)) with false
    by (symmetry; apply orb_false_iff; split; [apply Z.ltb_ge | apply Z.leb_gt]; lia).
  rewrite !nth_error_map, nth_error_seq.
  replace (Z.to_nat i <? n)%nat with true by (symmetry; apply Nat.ltb_lt; lia).
  simpl. rewrite Z2Nat.id by lia. reflexivity.
Qed.

(** When [start_year + n_years] fits in an [int], the loop of the template
    constructor runs exactly [n_years] times. *)
Lemma tz_table_of_provider_in_range : forall tz sy n,
  0 <= n -> in_int32 sy -> in_int32 (sy + n) ->
  tz_table_of_provider tz sy n =
  mk_tz_table sy (p_name tz)
    (map (fun y => mk_utcperiod (p_dst_start tz y) (p_dst_end tz y))
       (map (fun i => sy + Z.of_nat i) (seq 0 (Z.to_nat n))))
    (map (p_dst_offset tz) (map (fun i => sy + Z.of_nat i) (seq 0 (Z.to_nat n)))).
Proof.
  intros tz sy n Hn Hs Hb. unfold tz_table_of_provider.
  rewrite wrap32_id by exact Hb.
  replace (sy + n - sy) with n by ring. reflexivity.
Qed.

(** The table built from a rule provider answers, for a covered year, with the
    provider's start, end and offset of that year. *)
Lemma provider_table_year : forall tz sy n y,
  0 <= n < 2 ^ 31 -> in_int32 sy -> in_int32 (sy + n) ->
  sy <= y < sy + n ->
  is_dst (tz_table_of_provider tz sy n) = true /\
  dst_start (tz_table_of_provider tz sy n) y = Ok (p_dst_start tz y) /\
  dst_end (tz_table_of_provider tz sy n) y = Ok (p_dst_end tz y) /\
  vec_at (dt (tz_table_of_provider tz sy n)) (wrap32 (y - sy)) = Ok (p_dst_offset tz y).
Proof.
  intros tz sy n y Hn Hs Hb Hy.
  rewrite (tz_table_of_provider_in_range tz sy n) by (assumption || lia).
  assert (D : is_dst (mk_tz_table sy (p_name tz)
    (map (fun y => mk_utcperiod (p_dst_start tz y) (p_dst_end tz y))
       (map (fun i => sy + Z.of_nat i) (seq 0 (Z.to_nat n))))
    (map (p_dst_offset tz) (map (fun i => sy + Z.of_nat i) (seq 0 (Z.to_nat n))))) = true).
  { unfold is_dst; simpl. rewrite length_map, length_map, length_seq.
    apply Nat.ltb_lt. lia. }
  unfold dst_start, dst_end. rewrite D. simpl.
  rewrite wrap32_id by (unfold in_int32; lia).
  rewrite !(vec_at_years _ _ sy (Z.to_nat n) (y - sy)) by lia; simpl.
  replace (sy + (y - sy)) with y by lia. auto.
Qed.

Lemma provider_table_dst_offset : forall tz sy n t y,
  0 <= n < 2 ^ 31 -> in_int32 sy -> in_int32 (sy + n) ->
  utc_year t = Ok y -> sy <= y < sy + n ->
  dst_offset (tz_table_of_provider tz sy n) t =
  Ok (let s := p_dst_start tz y in
      let e := p_dst_end tz y in
      if (if s <? e then (s <=? t) && (t <? e) else (t <? e) || (s <=? t))
      then p_dst_offset tz y else 0).
Proof.
  intros tz sy n t y Hn Hs Hb Hy Hr.
  destruct (provider_table_year tz sy n y Hn Hs Hb Hr) as [D [S [E O]]].
  assert (W : wrap32 (Z.of_nat (List.length (dst (tz_table_of_provider tz sy n)))) = n).
  { rewrite (tz_table_of_provider_in_range tz sy n) by (assumption || lia). simpl.
    rewrite !length_map, length_seq, Z2Nat.id by lia.
    apply wrap32_id. unfold in_int32; lia. }
  assert (SY : start_year (tz_table_of_provider tz sy n) = sy) by reflexivity.
  remember (tz_table_of_provider tz sy n) as T eqn:HT; clear HT.
  unfold dst_offset. rewrite D, Hy. cbn [res_bind negb]. rewrite W, SY.
  rewrite (wrap32_id (y - sy)) in * by (unfold in_int32; lia).
  replace (n <=? y - sy) with false by (symmetry; apply Z.leb_gt; lia).
  rewrite S, E. cbn [res_bind].
  destruct (if p_dst_start tz y <? p_dst_end tz y then _ else _); [exact O | reflexivity].
Qed.









(** X16: a table without DST gives offset 0 at every instant, [no_utctime]
    included; a table with DST throws ["year of no_utctime"] at
    [no_utctime]. *)
Theorem dst_offset_none_instant : forall tbl t,
  (dst tbl = [] -> dst_offset tbl t = Ok 0) /\
  (dst tbl <> [] -> dst_offset tbl no_utctime = Throw "year of no_utctime").
Proof.
  intros tbl t. unfold dst_offset, is_dst. split; intro H.
  - rewrite H. reflexivity.
  - destruct (dst tbl); [contradiction|]. reflexivity.
Qed.

(** X17: the tz_info built from a fixed offset (as [calendar(int tz_s)] does
    with [tz_s] seconds) has that offset as its UTC offset at every instant
    and is never in DST. *)
Theorem fixed_offset_tz_info : forall base tz_s t,
  base_offset (tz_info_of_offset base) = base /\
  utc_offset (tz_info_of_offset base) t = Ok base /\
  tz_info_is_dst (tz_info_of_offset base) t = Ok false /\
  utc_offset (calendar_of_seconds tz_s) t = Ok (tz_s * SECOND).
Proof.
  intros base tz_s t. unfold utc_offset, tz_info_is_dst, calendar_of_seconds.
  simpl. rewrite !Z.add_0_r. auto.
Qed.

Lemma map_find_in : forall (A : Type) (m : list (string * A)) k v,
  NoDup (map fst m) -> In (k, v) m -> map_find m k = Some v.
Proof.
  intros A m k v. induction m as [|[k' v'] m IH]; simpl; [contradiction|].
  intros Hn Hi. inversion Hn as [|x l Hnot Hn']; subst.
  destruct Hi as [E|Hi].
  - inversion E; subst. rewrite String.eqb_refl. reflexivity.
  - destruct (String.eqb_spec k k') as [->|_]; [|auto].
    exfalso. apply Hnot. apply (in_map fst _ _ Hi).
Qed.

Lemma map_find_absent : forall (A : Type) (m : list (string * A)) k,
  (forall v, ~ In (k, v) m) -> map_find m k = None.
Proof.
  intros A m k. induction m as [|[k' v'] m IH]; simpl; [reflexivity|].
  intros H. destruct (String.eqb_spec k k') as [->|_].
  - exfalso. apply (H v'). left; reflexivity.
  - apply IH. intros v Hi. apply (H v). right; exact Hi.
Qed.

(** X18: in a database whose maps have unique keys, looking up a registered
    region (or name) yields its tz_info, and looking up an unregistered one
    throws an error naming the key. *)
Theorem tz_info_lookup : forall db r,
  NoDup (map fst (region_tz_map db)) -> NoDup (map fst (name_tz_map db)) ->
  (forall v, In (r, v) (region_tz_map db) -> tz_info_from_region db r = Ok v) /\
  ((forall v, ~ In (r, v) (region_tz_map db)) ->
     tz_info_from_region db r = Throw ("tz region '" ++ r ++ "' not found")%string) /\
  (forall v, In (r, v) (name_tz_map db) -> tz_info_from_name db r = Ok v) /\
  ((forall v, ~ In (r, v) (name_tz_map db)) ->
     tz_info_from_name db r = Throw ("tz name '" ++ r ++ "' not found")%string).
Proof.
  intros db r H1 H2. unfold tz_info_from_region, tz_info_from_name.
  repeat split; intros.
  - rewrite (map_find_in _ _ _ v H1 H). reflexivity.
  - rewrite (map_find_absent _ _ _ H). reflexivity.
  - rewrite (map_find_in _ _ _ v H2 H). reflexivity.
  - rewrite (map_find_absent _ _ _ H). reflexivity.
Qed.

Lemma tz_info_lookup_witness :
  tz_info_from_region sample_db "Europe/Oslo" = Ok (mk_tz_info (deltahours 1) sample_table) /\
  tz_info_from_name sample_db "Europe/Oslo" = Throw "tz name 'Europe/Oslo' not found"%string.
Proof.
  assert (N1 : NoDup (map fst (region_tz_map sample_db))).
  { simpl. constructor; [simpl; intros [E|[]]; discriminate|].
    constructor; [simpl; tauto | constructor]. }
  assert (N2 : NoDup (map fst (name_tz_map sample_db))).
  { simpl. constructor; [simpl; tauto | constructor]. }
  destruct (tz_info_lookup sample_db "Europe/Oslo" N1 N2) as [A [_ [_ B]]].
  split.
  - apply A. left; reflexivity.
  - apply B. intros v [E|[]]. discriminate.
Defined.

Lemma printf_plus_02d_one_digit : forall h,
  -9 <= h <= 9 ->
  printf_plus_02d h =
  String (if h <? 0 then "-"%char else "+"%char)
    (String (ascii_of_nat (48 + Z.to_nat (Z.abs h))) "").
Proof.
  intros h Hh.
  assert (C : h = -9 \/ h = -8 \/ h = -7 \/ h = -6 \/ h = -5 \/ h = -4 \/ h = -3 \/
              h = -2 \/ h = -1 \/ h = 0 \/ h = 1 \/ h = 2 \/ h = 3 \/ h = 4 \/ h = 5 \/
              h = 6 \/ h = 7 \/ h = 8 \/ h = 9) by lia.
  repeat destruct C as [-> | C]; try reflexivity. subst; reflexivity.
Qed.

(** X19: the fixed-offset constructor writes the whole hours [h] of any
    offset strictly between -10 h and +10 h as "UTC", the sign of [h] and the
    single decimal digit [|h|]: five characters, with no zero padding. *)
Theorem fixed_offset_name_five_chars : forall d,
  - deltahours 10 < d < deltahours 10 ->
  -9 <= Z.quot d (deltahours 1) <= 9 /\
  name (tz_table_of_offset d) =
    ("UTC" ++ String (if (Z.quot d (deltahours 1) <? 0)%Z then "-"%char else "+"%char)
       (String (ascii_of_nat (48 + Z.to_nat (Z.abs (Z.quot d (deltahours 1))))) ""))%string /\
  String.length (name (tz_table_of_offset d)) = 5%nat.
Proof.
  intros d Hd. unfold name, tz_table_of_offset; simpl.
  assert (Q : -9 <= Z.quot d (deltahours 1) <= 9).
  { unfold deltahours in *.
    destruct (Z.le_gt_cases 0 d) as [P|N].
    - assert (Z.quot d (1 * 3600 * 1000000) < 10) by (apply Z.quot_lt_upper_bound; lia).
      assert (0 <= Z.quot d (1 * 3600 * 1000000)) by (apply Z.quot_pos; lia). lia.
    - replace d with (- (- d)) by lia. rewrite Z.quot_opp_l by lia.
      assert (Z.quot (- d) (1 * 3600 * 1000000) < 10) by (apply Z.quot_lt_upper_bound; lia).
      assert (0 <= Z.quot (- d) (1 * 3600 * 1000000)) by (apply Z.quot_pos; lia). lia. }
  rewrite wrap32_id by (unfold in_int32; lia).
  rewrite printf_plus_02d_one_digit by exact Q.
  split; [exact Q | split; reflexivity].
Qed.

Lemma fixed_offset_name_five_chars_witness :
  name (tz_table_of_offset (deltahours 5 + 30 * 60 * SECOND)) = "UTC+5"%string.
Proof.
  rewrite (proj1 (proj2 (fixed_offset_name_five_chars (deltahours 5 + 30 * 60 * SECOND)
             ltac:(unfold deltahours, SECOND; lia)))).
  vm_compute. reflexivity.
Defined.
